(** * pypiserver_testing: command builders, scoped mutators, runner, fixtures

    A shallow embedding of [pypiserver_testing/system.py] and
    [pypiserver_testing/fixtures.py].

    Python generator functions are embedded as terms of a small coroutine
    monad [G Y A]: a computation that reads and writes the host process
    state ([world]), may raise, and may suspend at a [yield].  The consumer
    of a generator decides what happens at the suspension point: [next()]
    resumes it normally, [throw(e)] raises [e] at the [yield].  The
    [with] statement over a [@contextmanager] generator, [list(...)] over a
    generator and the fixture protocol of pytest are consumers written once,
    below, and the functions of the repository are then transcribed
    statement by statement. *)

From Stdlib Require Import ZArith String Ascii List.
From stdpp Require Import gmap strings list fin_maps.
Import ListNotations.

Local Open Scope string_scope.
Local Open Scope Z_scope.

(** ** Host state *)

(** A file-system entry.  Paths are kept as absolute strings. *)
Inductive node : Type := Dir | File.

(** The part of the process and host state the library touches:
    [os.environ], the working directory and the file system. *)
Record world : Type := World {
  environ : gmap string string;
  cwd : string;
  fs : gmap string node
}.

Definition set_environ (m : gmap string string) (w : world) : world :=
  {| environ := m; cwd := cwd w; fs := fs w |}.
Definition set_cwd (d : string) (w : world) : world :=
  {| environ := environ w; cwd := d; fs := fs w |}.
Definition set_fs (f : gmap string node) (w : world) : world :=
  {| environ := environ w; cwd := cwd w; fs := f |}.

(** Text as Python 3 has it: a sequence of Unicode code points. *)
Definition text : Type := list N.
Definition bytes : Type := list Byte.byte.

(** ** Exceptions *)

Inductive exn : Type :=
| KeyError (key : string)
| FileNotFoundError (p : string)
| NotADirectoryError (p : string)
| FileExistsError (p : string)
| OSError (argv : list string)
| UnicodeDecodeError (data : bytes)
| CalledProcessError (returncode : Z) (cmd : list string)
                     (output stderr : option text)
    (* [cmd]: the command, recorded as the argument vector it came to *)
| RuntimeError (msg : string)
| Exception (msg : string).

(** ** The coroutine monad *)

Inductive G (Y A : Type) : Type :=
| Ret (a : A)
| Raise (e : exn)
| Get (k : world -> G Y A)
| Put (w : world) (k : G Y A)
| Yield (y : Y) (k : option exn -> G Y A).

Arguments Ret {Y A} a.
Arguments Raise {Y A} e.
Arguments Get {Y A} k.
Arguments Put {Y A} w k.
Arguments Yield {Y A} y k.

Fixpoint bind {Y A B} (g : G Y A) (f : A -> G Y B) : G Y B :=
  match g with
  | Ret a => f a
  | Raise e => Raise e
  | Get k => Get (fun w => bind (k w) f)
  | Put w k => Put w (bind k f)
  | Yield y k => Yield y (fun s => bind (k s) f)
  end.

#[global] Instance G_ret {Y} : MRet (G Y) := fun _ a => Ret a.
#[global] Instance G_bind {Y} : MBind (G Y) := fun _ _ f g => bind g f.

(** [yield y]: suspend; on [next()] the consumer passes [None] and the
    generator goes on, on [throw(e)] it passes [Some e] and [e] is raised
    at the [yield]. *)
Definition yield_ {Y} (y : Y) : G Y unit :=
  Yield y (fun s => match s with None => Ret tt | Some e => Raise e end).

(** [for x in xs: body x] *)
Fixpoint for_ {Y X} (xs : list X) (body : X -> G Y unit) : G Y unit :=
  match xs with
  | [] => Ret tt
  | x :: xs' => body x;; for_ xs' body
  end.

(** The result of running a computation that is not suspended. *)
Inductive outcome (A : Type) : Type :=
| Ok (a : A) (w : world)
| Err (e : exn) (w : world).
Arguments Ok {A} a w.
Arguments Err {A} e w.

(** Plain code (a function body, a [with] block, a test) never yields:
    its yield type is empty. *)
Fixpoint exec {A} (g : G Empty_set A) (w : world) : outcome A :=
  match g with
  | Ret a => Ok a w
  | Raise e => Err e w
  | Get k => exec (k w) w
  | Put w' k => exec k w'
  | Yield y _ => match y with end
  end.

(** Code supplied by the caller of the library (the body of a [with]
    block, the tests of a fixture scope): any function of the host state
    that returns or raises. *)
Definition call {Y A} (f : world -> outcome A) : G Y A :=
  Get (fun w => match f w with
                | Ok a w' => Put w' (Ret a)
                | Err e w' => Put w' (Raise e)
                end).

(** ** Consumers of generators *)

(** [list(gen)]: call [next()] until the generator returns. *)
Fixpoint list_ {Y Y'} (gen : G Y unit) : G Y' (list Y) :=
  match gen with
  | Ret _ => Ret []
  | Raise e => Raise e
  | Get k => Get (fun w => list_ (k w))
  | Put w k => Put w (list_ k)
  | Yield y k => l ← list_ (k None); Ret (y :: l)
  end.

(** [try: g except BaseException as e: ...] as a value. *)
Fixpoint try_ {Y A} (g : G Y A) : G Y (exn + A) :=
  match g with
  | Ret a => Ret (inr a)
  | Raise e => Ret (inl e)
  | Get k => Get (fun w => try_ (k w))
  | Put w k => Put w (try_ k)
  | Yield y k => Yield y (fun s => try_ (k s))
  end.

(** [contextlib.contextmanager], [__enter__]: run the generator to its
    first [yield]; a generator that returns without yielding is an error. *)
Fixpoint cm_enter {Y} (gen : G unit unit)
    (block : (option exn -> G unit unit) -> G Y unit) : G Y unit :=
  match gen with
  | Ret _ => Raise (RuntimeError "generator didn't yield")
  | Raise e => Raise e
  | Get k => Get (fun w => cm_enter (k w) block)
  | Put w k => Put w (cm_enter k block)
  | Yield _ k => block k
  end.

(** [__exit__]: after [next()] or [throw(e)] the generator has to finish.
    When it returns, the [with] statement completes (an exception thrown
    into it has been swallowed); when it raises, that exception leaves the
    [with] statement; a second [yield] is an error. *)
Fixpoint cm_exit {Y} (gen : G unit unit) : G Y unit :=
  match gen with
  | Ret _ => Ret tt
  | Raise e => Raise e
  | Get k => Get (fun w => cm_exit (k w))
  | Put w k => Put w (cm_exit k)
  | Yield _ _ => Raise (RuntimeError "generator didn't stop")
  end.

(** [with cm: block] *)
Definition with_ {Y} (cm : G unit unit) (block : G Y unit) : G Y unit :=
  cm_enter cm (fun k =>
    r ← try_ block;
    match r with
    | inr _ => cm_exit (k None)
    | inl e => cm_exit (k (Some e))
    end).

(** ** The Python and POSIX primitives the library calls *)

(** [str(x)] and [os.fspath(x)] of a [Union[str, pathlib.Path]]: such a
    value is represented by its string form. *)
Definition str (p : string) : string := p.

Definition startswith (s pre : string) : bool := String.prefix pre s.

Fixpoint endswith_sep (s : string) : bool :=
  match s with
  | EmptyString => false
  | String c EmptyString => Ascii.eqb c "/"
  | String _ s' => endswith_sep s'
  end.

(** [posixpath.join(a, b)] *)
Definition path_join (a b : string) : string :=
  if startswith b "/" then b
  else if String.eqb a "" || endswith_sep a then a ++ b
  else a ++ "/" ++ b.

(** [x in xs] and [any(...)] *)
Definition in_ (x : string) (xs : list string) : bool := bool_decide (x ∈ xs).
Definition any_ (bs : list bool) : bool := existsb id bs.

(** [bytes.decode('utf-8')], strict, as in Python 3: shortest forms only,
    no surrogates, nothing above U+10FFFF. *)
Definition cont (b : Byte.byte) : option N :=
  let n := Byte.to_N b in
  if ((128 <=? n) && (n <=? 191))%N then Some (n - 128)%N else None.

Fixpoint decode_utf8 (bs : bytes) : option text :=
  match bs with
  | [] => Some []
  | b0 :: r0 =>
    let n0 := Byte.to_N b0 in
    if (n0 <? 128)%N then
      rest ← decode_utf8 r0; Some (n0 :: rest)
    else if (n0 <? 194)%N then None
    else if (n0 <? 224)%N then
      match r0 with
      | b1 :: r1 =>
        c1 ← cont b1;
        rest ← decode_utf8 r1;
        Some (((n0 - 192) * 64 + c1)%N :: rest)
      | _ => None
      end
    else if (n0 <? 240)%N then
      match r0 with
      | b1 :: b2 :: r2 =>
        c1 ← cont b1;
        c2 ← cont b2;
        let cp := ((n0 - 224) * 4096 + c1 * 64 + c2)%N in
        if ((cp <? 2048) || ((55296 <=? cp) && (cp <=? 57343)))%N then None
        else rest ← decode_utf8 r2; Some (cp :: rest)
      | _ => None
      end
    else if (n0 <? 245)%N then
      match r0 with
      | b1 :: b2 :: b3 :: r3 =>
        c1 ← cont b1;
        c2 ← cont b2;
        c3 ← cont b3;
        let cp := ((n0 - 240) * 262144 + c1 * 4096 + c2 * 64 + c3)%N in
        if ((cp <? 65536) || (1114111 <? cp))%N then None
        else rest ← decode_utf8 r3; Some (cp :: rest)
      | _ => None
      end
    else None
  end.

(** [os.environ] *)
Definition environ_getitem {Y} (key : string) : G Y string :=
  Get (fun w => match environ w !! key with
                | Some v => Ret v
                | None => Raise (KeyError key)
                end).
Definition environ_setitem {Y} (key value : string) : G Y unit :=
  Get (fun w => Put (set_environ (<[key := value]> (environ w)) w) (Ret tt)).
Definition environ_copy {Y} : G Y (gmap string string) :=
  Get (fun w => Ret (environ w)).
Definition environ_clear {Y} : G Y unit :=
  Get (fun w => Put (set_environ ∅ w) (Ret tt)).
Definition environ_update {Y} (m : gmap string string) : G Y unit :=
  Get (fun w => Put (set_environ (m ∪ environ w) w) (Ret tt)).

(** [os.getcwd()] and [os.chdir(target)] *)
Definition getcwd {Y} : G Y string :=
  Get (fun w => match fs w !! cwd w with
                | Some Dir => Ret (cwd w)
                | _ => Raise (FileNotFoundError (cwd w))
                end).
Definition chdir {Y} (target : string) : G Y unit :=
  Get (fun w => match fs w !! target with
                | Some Dir => Put (set_cwd target w) (Ret tt)
                | Some File => Raise (NotADirectoryError target)
                | None => Raise (FileNotFoundError target)
                end).

(** [shutil.rmtree(p)]: [p] has to be a directory; it goes with everything
    below it. *)
Definition below (p q : string) : bool :=
  String.eqb p q || String.prefix (p ++ "/") q.
Definition rmtree {Y} (p : string) : G Y unit :=
  Get (fun w => match fs w !! p with
                | Some Dir =>
                  Put (set_fs (filter (fun e => below p e.1 = false) (fs w)) w)
                      (Ret tt)
                | Some File => Raise (NotADirectoryError p)
                | None => Raise (FileNotFoundError p)
                end).

(** What a child process has done by the time it has been waited for. *)
Record completed : Type := Completed {
  c_returncode : Z;
  c_stdout : bytes;
  c_stderr : bytes;
  c_fs : gmap string node
}.

(** A [subprocess.Popen] object. *)
Record popen : Type := MkPopen {
  p_args : list string;
  p_pipe : bool;
  p_done : completed
}.

(** A Python value returned by [run]. *)
Inductive pyval : Type :=
| PInt (z : Z)
| PStr (t : text)
| PNone.

Definition of_option (o : option text) : pyval :=
  match o with Some t => PStr t | None => PNone end.

(** ** system.py *)

Section Host.

(** [const.PY2]: whether the library runs under Python 2. *)
Variable PY2 : bool.
(** [sys.executable] *)
Variable sys_executable : string.
(** The operating system: what executing [argv] in a given host state
    comes to, [None] when the program cannot be started. *)
Variable spawn : list string -> world -> option completed.
(** The directory name [tempfile.mkdtemp] ends on: the first free one
    among the names it tries or, when its attempts run out, a taken
    one. *)
Variable mkdtemp_name : world -> string.

(** [Popen(cmd, stdout=pipe, stderr=pipe)]: the iterable [cmd] is
    consumed into the argument vector.  Keyword arguments passed through
    to [Popen] are not modelled. *)
Definition Popen {Y} (cmd : G string unit) (pipe : bool) : G Y popen :=
  argv ← list_ cmd;
  Get (fun w => match spawn argv w with
                | Some c => Ret (MkPopen argv pipe c)
                | None => Raise (OSError argv)
                end).

(** [proc.communicate()]: wait for the child; a stream is returned only
    when it was piped. *)
Definition communicate {Y} (proc : popen)
    : G Y (option bytes * option bytes) :=
  Get (fun w =>
    Put (set_fs (c_fs (p_done proc)) w)
        (Ret (if p_pipe proc
              then (Some (c_stdout (p_done proc)),
                    Some (c_stderr (p_done proc)))
              else (None, None)))).

Definition returncode (proc : popen) : Z := c_returncode (p_done proc).

(** [tempfile.mkdtemp()]: the directory is made under the name the
    attempts end on; when that name is taken the attempts have run out
    and [mkdtemp] gives up. *)
Definition mkdtemp {Y} : G Y string :=
  Get (fun w => let d := mkdtemp_name w in
                match fs w !! d with
                | None => Put (set_fs (<[d := Dir]> (fs w)) w) (Ret d)
                | Some _ =>
                  Raise (FileExistsError
                           "No usable temporary directory name found")
                end).

(** [lambda x: x if x is None else x.decode('utf-8')] *)
Definition decode_or_none {Y} (x : option bytes) : G Y (option text) :=
  match x with
  | None => Ret None
  | Some b => match decode_utf8 b with
              | Some t => Ret (Some t)
              | None => Raise (UnicodeDecodeError b)
              end
  end.

Definition add_to_path (target : string) : G unit unit :=
  start ← environ_getitem "PATH";
  environ_setitem "PATH" (target ++ ":" ++ start);;
  yield_ tt;;
  environ_setitem "PATH" start.

Definition activate_venv (venv_dir : string) : G unit unit :=
  start_env ← environ_copy;
  environ_setitem "VIRTUAL_ENV" (str venv_dir);;
  environ_setitem "__PYVENV_LAUNCHER__" (str venv_dir ++ "/bin/python");;
  with_ (add_to_path (path_join venv_dir "bin")) (yield_ tt);;
  environ_clear;;
  environ_update start_env.

(** [background(cmd, capture)]: the process object, not waited for. *)
Definition background {Y} (cmd : G string unit) (capture : bool)
    : G Y popen :=
  let pipe := capture in
  Popen cmd pipe.

Definition changedir (target : string) : G unit unit :=
  start ← getcwd;
  chdir target;;
  yield_ tt;;
  chdir start.

Definition pip_cmd (default_index : string) (args : list string)
    : G string unit :=
  yield_ "pip";;
  for_ args (fun arg => yield_ arg);;
  if any_ (map (fun i => in_ i args) ["install"; "download"; "search"])
     && negb (any_ (map (fun i => in_ i args)
                        ["-i"; "--index"; "--index-url"]))
  then yield_ "-i";; yield_ "http://localhost:8080"
  else Ret tt.

Definition pypiserver_cmd (root cmd : string) (args : list string)
    : G string unit :=
  yield_ "pypiserver";;
  yield_ cmd;;
  yield_ (str root);;
  for_ args (fun arg => yield_ arg).

(** A call [pypiserver_cmd(root, *rest)]: the first positional argument
    after [root] binds [cmd], whose default is ['run']. *)
Definition pypiserver_cmd_call (root : string) (rest : list string)
    : G string unit :=
  match rest with
  | [] => pypiserver_cmd root "run" []
  | cmd :: args => pypiserver_cmd root cmd args
  end.

Definition run {Y} (cmd : G string unit) (raise_on_err capture : bool)
    : G Y pyval :=
  let pipe := capture in
  proc ← Popen cmd pipe;
  streams ← communicate proc;
  out ← decode_or_none streams.1;
  err ← decode_or_none streams.2;
  if raise_on_err && negb (returncode proc =? 0) then
    Raise (CalledProcessError (returncode proc) (p_args proc) out err)
  else if capture then Ret (of_option out)
  else Ret (PInt (returncode proc)).

Definition twine_cmd (repo_url : string) (args : list string)
    : G string unit :=
  yield_ "twine";;
  for_ args (fun arg => yield_ arg);;
  for_ ["--repository-url"; repo_url] (fun part => yield_ part);;
  (if negb (in_ "-u" args)
   then for_ ["-u"; "username"] (fun part => yield_ part)
   else Ret tt);;
  (if negb (in_ "-p" args)
   then for_ ["-p"; "password"] (fun part => yield_ part)
   else Ret tt).

Definition create_venv_cmd (venv_dir : string) (python : option string)
    (args : list string) : G string unit :=
  let python := match python with
                | None => sys_executable
                | Some p => p
                end in
  (if PY2
   then for_ ["virtualenv"; "-p"; python] (fun part => yield_ part)
   else for_ [python; "-m"; "venv"] (fun part => yield_ part));;
  yield_ (str venv_dir).

(** ** fixtures.py *)

Definition venv_fixture (python : option string) : G string unit :=
  venv_root ← mkdtemp;
  let venv_dir := path_join venv_root "venv" in
  run (create_venv_cmd venv_dir python []) true false;;
  yield_ venv_dir;;
  rmtree venv_dir.

(** What [pytest.fixture(scope=..., autouse=...)] registers. *)
Record fixture : Type := Fixture {
  f_scope : string;
  f_autouse : bool;
  f_func : G string unit
}.

Definition create_venv_fixture (scope : string) (autouse : bool)
    (python : option string) : fixture :=
  Fixture scope autouse (venv_fixture python).

End Host.

(** ** pytest's protocol for a generator fixture *)

(** One [next()] on a generator: it returns, raises or suspends. *)
Inductive step (Y A : Type) : Type :=
| Returned (a : A) (w : world)
| Raised (e : exn) (w : world)
| Yielded (y : Y) (k : option exn -> G Y A) (w : world).
Arguments Returned {Y A} a w.
Arguments Raised {Y A} e w.
Arguments Yielded {Y A} y k w.

Fixpoint next {Y A} (g : G Y A) (w : world) : step Y A :=
  match g with
  | Ret a => Returned a w
  | Raise e => Raised e w
  | Get k => next (k w) w
  | Put w' k => next k w'
  | Yield y k => Yielded y k w
  end.

(** What a scope that uses a fixture comes to. *)
Inductive scope_result (A : Type) : Type :=
| SetupError (e : exn) (w : world)
| Finished (value : A) (at_yield : world)
           (tests teardown : option exn) (final : world).
Arguments SetupError {A} e w.
Arguments Finished {A} value at_yield tests teardown final.

(** Setup runs the fixture function to its [yield]; the tests of the scope
    get the yielded value; at the end of the scope, whatever the tests
    did, pytest calls [next()] once more and the generator has to finish.
    A failing test is never thrown into the fixture. *)
Definition pytest_scope {A} (fix_ : G A unit)
    (tests : A -> world -> outcome unit) (w : world) : scope_result A :=
  match next fix_ w with
  | Raised e w1 => SetupError e w1
  | Returned _ w1 => SetupError (Exception "fixture did not yield a value") w1
  | Yielded v k w1 =>
    let '(t, w2) := match tests v w1 with
                    | Ok _ w2 => (None, w2)
                    | Err e w2 => (Some e, w2)
                    end in
    match next (k None) w2 with
    | Returned _ w3 => Finished v w1 t None w3
    | Raised e w3 => Finished v w1 t (Some e) w3
    | Yielded _ _ w3 =>
      Finished v w1 t (Some (Exception "fixture has more than one yield")) w3
    end
  end.

(** ** Auxiliary definitions for the statements *)

(** The host state an outcome ends in. *)
Definition final {A} (o : outcome A) : world :=
  match o with Ok _ w | Err _ w => w end.

(** An outcome as the step of a generator that did not suspend. *)
Definition to_step {Y A} (o : outcome A) : step Y A :=
  match o with Ok a w => Returned a w | Err e w => Raised e w end.

(** The environment in which the block of [with activate_venv(venv_dir):]
    starts, [start] being the value of [PATH] before. *)
Definition venv_environ (venv_dir start : string) (m : gmap string string)
    : gmap string string :=
  <["PATH" := path_join venv_dir "bin" ++ ":" ++ start]>
    (<["__PYVENV_LAUNCHER__" := venv_dir ++ "/bin/python"]>
       (<["VIRTUAL_ENV" := venv_dir]> m)).

(** A small host, a block that raises and one that does nothing. *)
Definition host0 : world :=
  World {[ "PATH" := "/usr/bin" ]} "/home"
        (<["/srv" := Dir]> {[ "/home" := Dir ]}).
Definition boom (w : world) : outcome unit := Err (Exception "boom") w.
Definition pass (w : world) : outcome unit := Ok tt w.

(** A list handed over as the iterable [cmd]. *)
Definition iter (xs : list string) : G string unit :=
  for_ xs (fun x => yield_ x).

(** An operating system on which every program prints [no], exits with
    status 2 and leaves the file system alone. *)
Definition failing_spawn (argv : list string) (w : world)
    : option completed :=
  Some (Completed 2 [Byte.x6e; Byte.x6f] [] (fs w)).

(** The exception a block or a test ended with, if any. *)
Definition failure {A} (o : outcome A) : option exn :=
  match o with Ok _ _ => None | Err e _ => Some e end.

(** The host state at the end of a fixture scope. *)
Definition scope_final {A} (r : scope_result A) : world :=
  match r with SetupError _ w => w | Finished _ _ _ _ w => w end.

(** The value the tests of a scope were given. *)
Definition scope_value {A} (r : scope_result A) : option A :=
  match r with SetupError _ _ => None | Finished v _ _ _ _ => Some v end.

(** [tempfile] always settling on one name, and an operating system on
    which every program behaves like a venv creator: it makes the
    directory named by its last argument, with a [bin] directory inside,
    and exits with status 0. *)
Definition tmp_name (w : world) : string := "/tmp/tmpq1".
Definition venv_spawn (argv : list string) (w : world) : option completed :=
  let d := List.last argv "" in
  Some (Completed 0 [] [] (<[d ++ "/bin" := Dir]> (<[d := Dir]> (fs w)))).

(** A host without [PATH], and a block that removes the directory
    [/home] and returns. *)
Definition bare : world := World ∅ "/home" {[ "/home" := Dir ]}.
Definition rm_home (w : world) : outcome unit :=
  Ok tt (set_fs (delete "/home" (fs w)) w).

(** A block that replaces the environment by one without [PATH]. *)
Definition scrub (w : world) : outcome unit :=
  Ok tt (set_environ {[ "EDITOR" := "vi" ]} w).

(** An operating system on which every program prints the byte [0xff],
    which is not UTF-8, and exits with status 0; one on which no program
    can be started; and one on which every program exits with status 0
    and prints nothing. *)
Definition garbled_spawn (argv : list string) (w : world)
    : option completed :=
  Some (Completed 0 [Byte.xff] [] (fs w)).
Definition no_spawn (argv : list string) (w : world) : option completed :=
  None.
Definition quiet_spawn (argv : list string) (w : world)
    : option completed :=
  Some (Completed 0 [] [] (fs w)).

(** Tests that empty the file system and pass. *)
Definition wipe (v : string) (w : world) : outcome unit :=
  Ok tt (set_fs ∅ w).

(** ** doubles.py *)

(** [setattr(self, key, value)] on an instance of a plain class, the
    instance being represented by its attribute dictionary: the value is
    stored under the name.  Three names are not stored: [__weakref__]
    is not writable ([AttributeError]), and [__class__] and [__dict__]
    are handled by [object] itself and act on the object, not on an
    attribute.  For these the result is [None]: no instance with that
    attribute. *)
Definition setattr {V} (self : gmap string V) (key : string) (value : V)
    : option (gmap string V) :=
  if bool_decide (key ∈ ["__class__"; "__dict__"; "__weakref__"]) then None
  else Some (<[key := value]> self).

(** [GenericNamespace] called with keyword arguments: a keyword named
    [self] collides with the first parameter of [__init__] and the call
    fails ([TypeError], [None] here); otherwise [__init__] sets one
    attribute per keyword argument on a fresh instance. *)
Definition GenericNamespace {V} (kwargs : gmap string V)
    : option (gmap string V) :=
  if bool_decide (is_Some (kwargs !! "self")) then None
  else map_fold (fun key value acc => self ← acc; setattr self key value)
                (Some ∅) kwargs.

(** ** Canonical paths *)



(** * Properties *)

(** ** Running computations *)

Lemma exec_bind {A B} (g : G Empty_set A) (f : A -> G Empty_set B) w :
  exec (g ≫= f) w =
  match exec g w with
  | Ok a w' => exec (f a) w'
  | Err e w' => Err e w'
  end.
Proof.
  revert w; induction g as [a|e|k IH|w' k IH|[] k IH]; intros w; simpl;
    try apply IH; auto.
Qed.

Lemma exec_call {A} (f : world -> outcome A) w : exec (call f) w = f w.
Proof. unfold call; simpl. destruct (f w); reflexivity. Qed.

(** [list(g; h)] is [list(g)] followed by [list(h)]. *)
Lemma list_seq {Y} (g h : G Y unit) w :
  exec (list_ (g;; h)) w =
  match exec (list_ g) w with
  | Ok l w' => match exec (list_ h) w' with
               | Ok l' w'' => Ok (l ++ l')%list w''
               | Err e w'' => Err e w''
               end
  | Err e w' => Err e w'
  end.
Proof.
  revert w; induction g as [[]|e|k IH|w' k IH|y k IH]; intros w; simpl.
  - destruct (exec (list_ h) w); reflexivity.
  - reflexivity.
  - apply IH.
  - apply IH.
  - change (exec (list_ (k None;; h) ≫= (fun l => Ret (y :: l))) w = 
            match exec (list_ (k None) ≫= (fun l => Ret (y :: l))) w with
            | Ok l w' => match exec (list_ h) w' with
                         | Ok l' w'' => Ok (l ++ l')%list w''
                         | Err e w'' => Err e w''
                         end
            | Err e w' => Err e w'
            end).
    rewrite !exec_bind, IH.
    destruct (exec (list_ (k None)) w) as [l w'|e w']; simpl; [|reflexivity].
    destruct (exec (list_ h) w'); reflexivity.
Qed.

Lemma list_yield {Y} (y : Y) w : exec (list_ (yield_ y)) w = Ok [y] w.
Proof. reflexivity. Qed.

Lemma list_ret {Y} w : exec (list_ (Ret tt : G Y unit)) w = Ok [] w.
Proof. reflexivity. Qed.

(** [for x in xs: yield x] yields the elements of [xs] in order. *)
Lemma list_for_yield {Y} (xs : list Y) w :
  exec (list_ (for_ xs (fun x => yield_ x))) w = Ok xs w.
Proof.
  induction xs as [|x xs IH]; [reflexivity|].
  change (for_ (x :: xs) (fun x => yield_ x))
    with (yield_ x;; for_ xs (fun x => yield_ x)).
  rewrite list_seq, list_yield, IH. reflexivity.
Qed.

Ltac tokens :=
  repeat first
    [ rewrite list_seq
    | rewrite list_for_yield
    | rewrite list_yield
    | rewrite list_ret ];
  simpl.

Lemma any_in_true (xs args : list string) :
  any_ (map (fun i => in_ i args) xs) = true <-> exists i, i ∈ xs /\ i ∈ args.
Proof.
  unfold any_, in_. rewrite existsb_exists. split.
  - intros (b & Hb & Hid). apply in_map_iff in Hb as (i & <- & Hi).
    exists i. split; [by apply list_elem_of_In|].
    by apply bool_decide_eq_true in Hid.
  - intros (i & Hi & Ha). exists true. split; [|done].
    apply in_map_iff. exists i. split; [by apply bool_decide_eq_true|].
    by apply list_elem_of_In.
Qed.

(** What [pip_cmd] yields, by the test it makes. *)
Lemma pip_cmd_tokens default_index args w :
  exec (list_ (pip_cmd default_index args)) w =
  Ok ("pip" :: args ++
      if any_ (map (fun i => in_ i args) ["install"; "download"; "search"])
         && negb (any_ (map (fun i => in_ i args)
                            ["-i"; "--index"; "--index-url"]))
      then ["-i"; "http://localhost:8080"] else [])%list w.
Proof.
  unfold pip_cmd. tokens.
  destruct (_ && _); tokens; reflexivity.
Qed.

(** The two credential blocks of [twine_cmd], by the tests it makes. *)
Lemma twine_cmd_tokens repo_url args w :
  exec (list_ (twine_cmd repo_url args)) w =
  Ok ("twine" :: args ++ ["--repository-url"; repo_url]
        ++ (if in_ "-u" args then [] else ["-u"; "username"])
        ++ (if in_ "-p" args then [] else ["-p"; "password"]))%list w.
Proof.
  unfold twine_cmd. tokens.
  destruct (in_ "-u" args), (in_ "-p" args); tokens; reflexivity.
Qed.

(** ** The command builders *)

(** C1, at an input where the code departs from it: asked for the index
    [http://pypi.example/simple], [pip_cmd] still yields the fixed URL
    [http://localhost:8080] after [-i], not the index it was given. *)
Theorem pip_cmd_ignores_default_index (w : world) :
  exec (list_ (pip_cmd "http://pypi.example/simple" ["install"; "foo"])) w
  = Ok ["pip"; "install"; "foo"; "-i"; "http://localhost:8080"] w
  /\ exec (list_ (pip_cmd "http://pypi.example/simple" ["install"; "foo"])) w
     <> Ok ["pip"; "install"; "foo"; "-i"; "http://pypi.example/simple"] w.
Proof.
  rewrite pip_cmd_tokens. split; [reflexivity|]. simpl. intros H.
  inversion H.
Qed.

(** X15: what the code does where C1 applies: with an operation and no alias
    among the arguments, [-i] and the fixed URL follow the arguments,
    whatever [default_index] is. *)
Lemma pip_cmd_appends_fixed_index (default_index : string)
    (args : list string) (w : world) :
  ("install" ∈ args \/ "download" ∈ args \/ "search" ∈ args) ->
  ("-i" ∉ args) /\ ("--index" ∉ args) /\ ("--index-url" ∉ args) ->
  exec (list_ (pip_cmd default_index args)) w
  = Ok ("pip" :: args ++ ["-i"; "http://localhost:8080"])%list w.
Proof.
  intros Hop (H1 & H2 & H3). rewrite pip_cmd_tokens.
  assert (E : any_ (map (fun i => in_ i args) ["install"; "download"; "search"])
         && negb (any_ (map (fun i => in_ i args)
                            ["-i"; "--index"; "--index-url"])) = true).
  { apply andb_true_iff. split.
    - apply any_in_true.
      destruct Hop as [H|[H|H]]; eexists; (split; [|exact H]); set_solver.
    - apply negb_true_iff, not_true_is_false. rewrite any_in_true.
      intros (i & Hi & Ha).
      apply elem_of_cons in Hi as [->|Hi]; [done|].
      apply elem_of_cons in Hi as [->|Hi]; [done|].
      apply elem_of_cons in Hi as [->|Hi]; [done|].
      by apply elem_of_nil in Hi. }
  by rewrite E.
Qed.

(** C5: when the arguments hold an index-flag alias, or hold none of the
    operations install, download, search, [pip_cmd] yields ['pip'] and
    the arguments, nothing more. *)
Theorem pip_cmd_no_default_flag (default_index : string)
    (args : list string) (w : world) :
  ("-i" ∈ args \/ "--index" ∈ args \/ "--index-url" ∈ args)
  \/ (("install" ∉ args) /\ ("download" ∉ args) /\ ("search" ∉ args)) ->
  exec (list_ (pip_cmd default_index args)) w = Ok ("pip" :: args) w.
Proof.
  intros H. rewrite pip_cmd_tokens.
  assert (E : any_ (map (fun i => in_ i args) ["install"; "download"; "search"])
         && negb (any_ (map (fun i => in_ i args)
                            ["-i"; "--index"; "--index-url"])) = false).
  { apply andb_false_iff. destruct H as [H|(H1 & H2 & H3)].
    - right. apply negb_false_iff, any_in_true.
      destruct H as [H|[H|H]]; eexists; (split; [|exact H]); set_solver.
    - left. apply not_true_is_false. rewrite any_in_true.
      intros (i & Hi & Ha).
      apply elem_of_cons in Hi as [->|Hi]; [done|].
      apply elem_of_cons in Hi as [->|Hi]; [done|].
      apply elem_of_cons in Hi as [->|Hi]; [done|].
      by apply elem_of_nil in Hi. }
  rewrite E. by rewrite app_nil_r.
Qed.

Lemma pip_cmd_no_default_flag_witness :
  exec (list_ (pip_cmd "http://localhost:8080"
                 ["install"; "foo"; "-i"; "http://other"])) host0
  = Ok ["pip"; "install"; "foo"; "-i"; "http://other"] host0
  /\ exec (list_ (pip_cmd "http://localhost:8080" ["list"; "-v"])) host0
     = Ok ["pip"; "list"; "-v"] host0.
Proof.
  split; apply pip_cmd_no_default_flag.
  - left. left. apply (bool_decide_unpack _). vm_compute. exact I.
  - right. repeat split; apply (bool_decide_unpack _); vm_compute; exact I.
Defined.

(** C6: [twine_cmd] yields ['twine'], the arguments, [--repository-url]
    and the URL, then the pair [-u username] exactly when [-u] is not
    among the arguments, then the pair [-p password] exactly when [-p]
    is not among them. *)
Theorem twine_cmd_defaults (repo_url : string) (args : list string)
    (w : world) :
  exists user password : list string,
    exec (list_ (twine_cmd repo_url args)) w =
    Ok ("twine" :: args ++ ["--repository-url"; repo_url]
          ++ user ++ password)%list w
    /\ (user = ["-u"; "username"] <-> "-u" ∉ args)
    /\ (user = [] <-> "-u" ∈ args)
    /\ (password = ["-p"; "password"] <-> "-p" ∉ args)
    /\ (password = [] <-> "-p" ∈ args).
Proof.
  rewrite twine_cmd_tokens. unfold in_.
  eexists _, _. split; [reflexivity|].
  do 2 case_bool_decide; naive_solver.
Qed.

(** C9: [pypiserver_cmd] yields ['pypiserver'], the subcommand, the root
    and the extra arguments in order; called with the root alone the
    subcommand is ['run'], so [pypiserver_cmd('/srv/pkgs')] is
    [['pypiserver', 'run', '/srv/pkgs']]. *)
Theorem pypiserver_cmd_tokens (root cmd : string) (args : list string)
    (w : world) :
  exec (list_ (pypiserver_cmd_call root (cmd :: args))) w
  = Ok ("pypiserver" :: cmd :: str root :: args) w
  /\ exec (list_ (pypiserver_cmd_call root [])) w
     = Ok ["pypiserver"; "run"; str root] w
  /\ exec (list_ (pypiserver_cmd_call "/srv/pkgs" [])) w
     = Ok ["pypiserver"; "run"; "/srv/pkgs"] w.
Proof.
  repeat split; try reflexivity.
  unfold pypiserver_cmd_call, pypiserver_cmd. tokens. reflexivity.
Qed.

(** C10: only the exact tokens [-u] and [-p] suppress the credential
    defaults.  With [--username] but no [-u] among the arguments the pair
    [-u username] is still yielded, and with [--password] but no [-p]
    the pair [-p password] is; the user block is empty exactly when [-u]
    is among the arguments and the password block exactly when [-p]
    is. *)
Theorem twine_cmd_long_flags (repo_url : string) (args : list string)
    (w : world) :
  exists user password : list string,
    exec (list_ (twine_cmd repo_url args)) w =
    Ok ("twine" :: args ++ ["--repository-url"; repo_url]
          ++ user ++ password)%list w
    /\ ("--username" ∈ args -> "-u" ∉ args -> user = ["-u"; "username"])
    /\ ("--password" ∈ args -> "-p" ∉ args -> password = ["-p"; "password"])
    /\ ("-u" ∉ args -> user = ["-u"; "username"])
    /\ ("-p" ∉ args -> password = ["-p"; "password"])
    /\ ("-u" ∈ args -> user = [])
    /\ ("-p" ∈ args -> password = []).
Proof.
  rewrite twine_cmd_tokens. unfold in_.
  eexists _, _. split; [reflexivity|].
  do 2 case_bool_decide; naive_solver.
Qed.

Lemma twine_cmd_long_flags_witness :
  exec (list_ (twine_cmd "http://localhost:8080"
                 ["upload"; "--username"; "bob"; "--password"; "s3"])) host0
  = Ok ["twine"; "upload"; "--username"; "bob"; "--password"; "s3";
        "--repository-url"; "http://localhost:8080";
        "-u"; "username"; "-p"; "password"] host0
  /\ exec (list_ (twine_cmd "http://localhost:8080"
                    ["upload"; "-u"; "bob"; "--password"; "s3"])) host0
     = Ok ["twine"; "upload"; "-u"; "bob"; "--password"; "s3";
           "--repository-url"; "http://localhost:8080";
           "-p"; "password"] host0.
Proof.
  split.
  - destruct (twine_cmd_long_flags "http://localhost:8080"
                ["upload"; "--username"; "bob"; "--password"; "s3"] host0)
      as (user & password & E & Hu & Hp & _).
    rewrite E, Hu, Hp; [reflexivity| | | |];
      apply (bool_decide_unpack _); vm_compute; exact I.
  - destruct (twine_cmd_long_flags "http://localhost:8080"
                ["upload"; "-u"; "bob"; "--password"; "s3"] host0)
      as (user & password & E & _ & Hp & _ & _ & Hu & _).
    rewrite E, Hu, Hp; [reflexivity| | |];
      apply (bool_decide_unpack _); vm_compute; exact I.
Defined.

(** ** The scoped mutators *)

(** [with add_to_path(target): block], run from [w]. *)
Lemma add_to_path_exec target (block : world -> outcome unit) w :
  exec (with_ (add_to_path target) (call block)) w =
  match environ w !! "PATH" with
  | None => Err (KeyError "PATH") w
  | Some start =>
    match block (set_environ
                   (<["PATH" := target ++ ":" ++ start]> (environ w)) w) with
    | Ok _ w2 => Ok tt (set_environ (<["PATH" := start]> (environ w2)) w2)
    | Err e w2 => Err e w2
    end
  end.
Proof.
  unfold with_, add_to_path. simpl.
  destruct (environ w !! "PATH") as [start|]; simpl; [|reflexivity].
  destruct (block _) as [[] w2|e w2]; reflexivity.
Qed.

(** [with changedir(target): block], run from [w]. *)
Lemma changedir_exec target (block : world -> outcome unit) w :
  exec (with_ (changedir target) (call block)) w =
  match fs w !! cwd w with
  | Some Dir =>
    match fs w !! target with
    | Some Dir =>
      match block (set_cwd target w) with
      | Ok _ w2 =>
        match fs w2 !! cwd w with
        | Some Dir => Ok tt (set_cwd (cwd w) w2)
        | Some File => Err (NotADirectoryError (cwd w)) w2
        | None => Err (FileNotFoundError (cwd w)) w2
        end
      | Err e w2 => Err e w2
      end
    | Some File => Err (NotADirectoryError target) w
    | None => Err (FileNotFoundError target) w
    end
  | _ => Err (FileNotFoundError (cwd w)) w
  end.
Proof.
  unfold with_, changedir. simpl.
  destruct (fs w !! cwd w) as [[]|]; simpl; try reflexivity.
  destruct (fs w !! target) as [[]|]; simpl; try reflexivity.
  destruct (block _) as [[] w2|e w2]; simpl; [|reflexivity].
  destruct (fs w2 !! cwd w) as [[]|]; reflexivity.
Qed.

(** [with activate_venv(venv_dir): block], run from [w]. *)
Lemma activate_venv_exec venv_dir (block : world -> outcome unit) w :
  exec (with_ (activate_venv venv_dir) (call block)) w =
  match environ w !! "PATH" with
  | None =>
    Err (KeyError "PATH")
        (set_environ (<["__PYVENV_LAUNCHER__" := venv_dir ++ "/bin/python"]>
                        (<["VIRTUAL_ENV" := venv_dir]> (environ w))) w)
  | Some start =>
    match block (set_environ (venv_environ venv_dir start (environ w)) w) with
    | Ok _ w2 => Ok tt (set_environ (environ w) w2)
    | Err e w2 => Err e w2
    end
  end.
Proof.
  unfold with_, activate_venv, add_to_path, venv_environ. simpl.
  rewrite !lookup_insert_ne by done.
  destruct (environ w !! "PATH") as [start|]; simpl; [|reflexivity].
  destruct (block _) as [[] w2|e w2]; simpl; [|reflexivity].
  unfold set_environ; simpl. f_equal. f_equal.
  apply map_eq; intros i. rewrite lookup_union, lookup_empty.
  by destruct (environ w !! i).
Qed.

(** C2 as stated fails: a block that raises leaves the mutation in place.
    On [host0], where [PATH] is [/usr/bin] and the working directory
    [/home], the exception leaves each of the three [with] statements
    with the state as the mutator set it, not as it was before. *)
Lemma scoped_mutators_keep_mutation_on_error :
  (exec (with_ (add_to_path "/opt/bin") (call boom)) host0
   = Err (Exception "boom")
         (set_environ {[ "PATH" := "/opt/bin:/usr/bin" ]} host0)
   /\ environ (final (exec (with_ (add_to_path "/opt/bin") (call boom)) host0))
        !! "PATH" <> environ host0 !! "PATH")
  /\ (exec (with_ (changedir "/srv") (call boom)) host0
      = Err (Exception "boom") (set_cwd "/srv" host0)
      /\ cwd (final (exec (with_ (changedir "/srv") (call boom)) host0))
         <> cwd host0)
  /\ (environ (final (exec (with_ (activate_venv "/venv") (call boom)) host0))
        !! "VIRTUAL_ENV" = Some "/venv"
      /\ environ (final (exec (with_ (activate_venv "/venv") (call boom))
                           host0))
         <> environ host0).
Proof.
  rewrite add_to_path_exec, changedir_exec, activate_venv_exec.
  repeat split; try (vm_compute; reflexivity).
  - vm_compute. intros H. discriminate H.
  - vm_compute. intros H. discriminate H.
  - intros H. apply (f_equal (fun m => m !! "VIRTUAL_ENV")) in H.
    vm_compute in H. discriminate H.
Qed.

(** C2, amended: when the block returns normally, [add_to_path] leaves
    [PATH] at its value before, [changedir] leaves the working directory
    at the directory before (which has to be there still), and
    [activate_venv] leaves the whole environment as it was. *)
Theorem scoped_mutators_restore_on_normal_exit (target : string)
    (block : world -> outcome unit) (w : world) :
  (forall start w2,
     environ w !! "PATH" = Some start ->
     block (set_environ
              (<["PATH" := target ++ ":" ++ start]> (environ w)) w)
     = Ok tt w2 ->
     exists w', exec (with_ (add_to_path target) (call block)) w = Ok tt w'
                /\ environ w' !! "PATH" = environ w !! "PATH")
  /\ (forall w2,
        fs w !! cwd w = Some Dir ->
        fs w !! target = Some Dir ->
        block (set_cwd target w) = Ok tt w2 ->
        fs w2 !! cwd w = Some Dir ->
        exists w', exec (with_ (changedir target) (call block)) w = Ok tt w'
                   /\ cwd w' = cwd w)
  /\ (forall start w2,
        environ w !! "PATH" = Some start ->
        block (set_environ (venv_environ target start (environ w)) w)
        = Ok tt w2 ->
        exists w', exec (with_ (activate_venv target) (call block)) w
                   = Ok tt w'
                   /\ environ w' = environ w).
Proof.
  split; [|split].
  - intros start w2 HP Hb. rewrite add_to_path_exec, HP, Hb.
    eexists; split; [reflexivity|]. simpl. by rewrite lookup_insert_eq.
  - intros w2 Hc Ht Hb Hs. rewrite changedir_exec, Hc, Ht, Hb, Hs.
    eexists; split; reflexivity.
  - intros start w2 HP Hb. rewrite activate_venv_exec, HP, Hb.
    eexists; split; reflexivity.
Qed.

Lemma scoped_mutators_restore_on_normal_exit_witness :
  (exists w', exec (with_ (add_to_path "/srv") (call pass)) host0 = Ok tt w'
              /\ environ w' !! "PATH" = environ host0 !! "PATH")
  /\ (exists w', exec (with_ (changedir "/srv") (call pass)) host0 = Ok tt w'
                 /\ cwd w' = cwd host0)
  /\ (exists w', exec (with_ (activate_venv "/srv") (call pass)) host0
                 = Ok tt w'
                 /\ environ w' = environ host0).
Proof.
  destruct (scoped_mutators_restore_on_normal_exit "/srv" pass host0)
    as (H1 & H2 & H3).
  split; [|split].
  - eapply (H1 "/usr/bin"); reflexivity.
  - eapply H2; reflexivity.
  - eapply (H3 "/usr/bin"); reflexivity.
Defined.

(** C4: when [PATH] is set and the block of [with activate_venv(venv_dir):]
    returns normally, the [with] statement returns normally and the
    environment after it is the environment before it, key for key; the
    rest of the host state is as the block left it. *)
Theorem activate_venv_restores_snapshot (venv_dir : string)
    (block : world -> outcome unit) (w w2 : world) (start : string) :
  environ w !! "PATH" = Some start ->
  block (set_environ (venv_environ venv_dir start (environ w)) w) = Ok tt w2 ->
  exists w',
    exec (with_ (activate_venv venv_dir) (call block)) w = Ok tt w'
    /\ environ w' = environ w
    /\ (forall key, environ w' !! key = environ w !! key)
    /\ cwd w' = cwd w2 /\ fs w' = fs w2.
Proof.
  intros HP Hb. rewrite activate_venv_exec, HP, Hb.
  eexists; repeat split.
Qed.

Lemma activate_venv_restores_snapshot_witness :
  exists w',
    exec (with_ (activate_venv "/venv") (call pass)) host0 = Ok tt w'
    /\ environ w' = environ host0
    /\ (forall key, environ w' !! key = environ host0 !! key)
    /\ cwd w' = cwd host0 /\ fs w' = fs host0.
Proof.
  apply (activate_venv_restores_snapshot "/venv" pass host0
           (set_environ (venv_environ "/venv" "/usr/bin" (environ host0)) host0)
           "/usr/bin"); reflexivity.
Defined.

(** ** The synchronous runner *)

(** [run], run from [w]. *)
Lemma run_exec spawn (cmd : G string unit) (raise_on_err capture : bool) w :
  exec (run spawn cmd raise_on_err capture) w =
  match exec (list_ cmd) w with
  | Err e w1 => Err e w1
  | Ok argv w1 =>
    match spawn argv w1 with
    | None => Err (OSError argv) w1
    | Some c =>
      let w2 := set_fs (c_fs c) w1 in
      let rc := c_returncode c in
      if capture then
        match decode_utf8 (c_stdout c) with
        | None => Err (UnicodeDecodeError (c_stdout c)) w2
        | Some out =>
          match decode_utf8 (c_stderr c) with
          | None => Err (UnicodeDecodeError (c_stderr c)) w2
          | Some err =>
            if raise_on_err && negb (rc =? 0)
            then Err (CalledProcessError rc argv (Some out) (Some err)) w2
            else Ok (PStr out) w2
          end
        end
      else
        if raise_on_err && negb (rc =? 0)
        then Err (CalledProcessError rc argv None None) w2
        else Ok (PInt rc) w2
    end
  end.
Proof.
  unfold run, Popen.
  cbv zeta.
  rewrite !exec_bind.
  destruct (exec (list_ cmd) w) as [argv w1|e w1]; simpl; [|reflexivity].
  destruct (spawn argv w1) as [c|]; simpl; [|reflexivity].
  destruct capture; simpl.
  - destruct (decode_utf8 (c_stdout c)); simpl; [|reflexivity].
    destruct (decode_utf8 (c_stderr c)); simpl; [|reflexivity].
    unfold returncode; simpl. destruct (_ && _); reflexivity.
  - unfold returncode; simpl. destruct (_ && _); reflexivity.
Qed.

(** C3 as stated fails at [capture=True]: with [raise_on_err=False] a
    command that prints [no] and exits with status 2 makes [run] return
    the text [no], not the return code 2. *)
Lemma run_capture_returns_output_not_code :
  exec (run failing_spawn (iter ["false"]) false true) host0
  = Ok (PStr [110; 111]%N) host0
  /\ exec (run failing_spawn (iter ["false"]) false true) host0
     <> Ok (PInt 2) host0.
Proof.
  rewrite run_exec. split; [vm_compute; reflexivity|].
  vm_compute. intros H. discriminate H.
Qed.

(** C3, amended: for a command that exits with a nonzero return code,
    whose captured streams (when capture is on) decode as UTF-8,
    [run] with [raise_on_err=True] raises [CalledProcessError] with that
    return code, and with [raise_on_err=False] it returns without raising:
    the return code when capture is off, the decoded stdout when it is
    on. *)
Theorem run_nonzero_exit (spawn : list string -> world -> option completed)
    (cmd : G string unit) (capture : bool) (w w1 : world)
    (argv : list string) (c : completed) (out err : text) :
  exec (list_ cmd) w = Ok argv w1 ->
  spawn argv w1 = Some c ->
  c_returncode c <> 0 ->
  (capture = true ->
   decode_utf8 (c_stdout c) = Some out /\ decode_utf8 (c_stderr c) = Some err) ->
  exec (run spawn cmd true capture) w
  = Err (CalledProcessError (c_returncode c) argv
           (if capture then Some out else None)
           (if capture then Some err else None))
        (set_fs (c_fs c) w1)
  /\ exec (run spawn cmd false capture) w
     = Ok (if capture then PStr out else PInt (c_returncode c))
          (set_fs (c_fs c) w1).
Proof.
  intros Hl Hs Hrc Hd. rewrite !run_exec, Hl, Hs. cbv zeta.
  apply Z.eqb_neq in Hrc. rewrite Hrc. simpl.
  destruct capture; [|split; reflexivity].
  destruct (Hd eq_refl) as [-> ->]. split; reflexivity.
Qed.

Lemma run_nonzero_exit_witness :
  exec (run failing_spawn (iter ["false"]) true true) host0
  = Err (CalledProcessError 2 ["false"] (Some [110; 111]%N) (Some [])) host0
  /\ exec (run failing_spawn (iter ["false"]) false true) host0
     = Ok (PStr [110; 111]%N) host0.
Proof.
  apply (run_nonzero_exit failing_spawn (iter ["false"]) true host0 host0
           ["false"] (Completed 2 [Byte.x6e; Byte.x6f] [] (fs host0))
           [110; 111]%N []).
  - reflexivity.
  - reflexivity.
  - discriminate.
  - intros _. split; reflexivity.
Defined.

(** C8: when [run] returns, it returns the decoded stdout of the child
    if capture was asked for, and the child's return code otherwise; and
    it does return, with that value, whenever the child could be
    started, no error was asked for (raise_on_err off, or return code 0)
    and, with capture on, the streams decode. *)
Theorem run_return_value (spawn : list string -> world -> option completed)
    (cmd : G string unit) (raise_on_err capture : bool) (w : world) :
  (forall v w',
     exec (run spawn cmd raise_on_err capture) w = Ok v w' ->
     exists argv w1 c,
       exec (list_ cmd) w = Ok argv w1
       /\ spawn argv w1 = Some c
       /\ w' = set_fs (c_fs c) w1
       /\ (raise_on_err = false \/ c_returncode c = 0)
       /\ if capture
          then exists out, decode_utf8 (c_stdout c) = Some out /\ v = PStr out
          else v = PInt (c_returncode c))
  /\ (forall argv w1 c out err,
        exec (list_ cmd) w = Ok argv w1 ->
        spawn argv w1 = Some c ->
        raise_on_err = false \/ c_returncode c = 0 ->
        (capture = true ->
         decode_utf8 (c_stdout c) = Some out
         /\ decode_utf8 (c_stderr c) = Some err) ->
        exec (run spawn cmd raise_on_err capture) w
        = Ok (if capture then PStr out else PInt (c_returncode c))
             (set_fs (c_fs c) w1)).
Proof.
  split.
  - intros v w'. rewrite run_exec.
    destruct (exec (list_ cmd) w) as [argv w1|e w1] eqn:Hl; [|discriminate].
    destruct (spawn argv w1) as [c|] eqn:Hs; [|discriminate].
    cbv zeta. intros H. exists argv, w1, c. do 2 (split; [done|]).
    assert (Hno : raise_on_err && negb (c_returncode c =? 0) = false ->
                  raise_on_err = false \/ c_returncode c = 0).
    { destruct raise_on_err; [|by left]. simpl. intros E. right.
      apply negb_false_iff in E. by apply Z.eqb_eq. }
    destruct capture.
    + destruct (decode_utf8 (c_stdout c)) as [out|]; [|discriminate].
      destruct (decode_utf8 (c_stderr c)); [|discriminate].
      destruct (_ && _) eqn:E; [discriminate|].
      injection H as <- <-. split_and!; auto. by exists out.
    + destruct (_ && _) eqn:E; [discriminate|].
      injection H as <- <-. split_and!; auto.
  - intros argv w1 c out err Hl Hs Hno Hd. rewrite run_exec, Hl, Hs. cbv zeta.
    assert (E : raise_on_err && negb (c_returncode c =? 0) = false).
    { destruct Hno as [->| ->]; [reflexivity|apply andb_false_r]. }
    rewrite E. destruct capture; [|reflexivity].
    by destruct (Hd eq_refl) as [-> ->].
Qed.

Lemma run_return_value_witness :
  exec (run failing_spawn (iter ["false"]) false true) host0
  = Ok (PStr [110; 111]%N) host0
  /\ (exists argv w1 c,
        exec (list_ (iter ["false"])) host0 = Ok argv w1
        /\ failing_spawn argv w1 = Some c
        /\ host0 = set_fs (c_fs c) w1
        /\ (false = false \/ c_returncode c = 0)
        /\ exists out, decode_utf8 (c_stdout c) = Some out
                       /\ PStr [110; 111]%N = PStr out)
  /\ exec (run failing_spawn (iter ["false"]) false false) host0
     = Ok (PInt 2) host0.
Proof.
  destruct (run_return_value failing_spawn (iter ["false"]) false true host0)
    as [Hshape Hreturns].
  assert (E : exec (run failing_spawn (iter ["false"]) false true) host0
              = Ok (PStr [110; 111]%N) host0).
  { apply (Hreturns ["false"] host0
             (Completed 2 [Byte.x6e; Byte.x6f] [] (fs host0))
             [110; 111]%N []).
    - reflexivity.
    - reflexivity.
    - left. reflexivity.
    - intros _. split; reflexivity. }
  split; [exact E|]. split; [exact (Hshape _ _ E)|].
  destruct (run_return_value failing_spawn (iter ["false"]) false false host0)
    as [_ Hreturns'].
  apply (Hreturns' ["false"] host0
           (Completed 2 [Byte.x6e; Byte.x6f] [] (fs host0)) [] []).
  - reflexivity.
  - reflexivity.
  - left. reflexivity.
  - discriminate.
Defined.

(** ** The virtual-environment fixture *)

Lemma next_bind {Y A B} (g : G Y A) (f : A -> G Y B) w :
  next (g ≫= f) w =
  match next g w with
  | Returned a w' => next (f a) w'
  | Raised e w' => Raised e w'
  | Yielded y k w' => Yielded y (fun s => k s ≫= f) w'
  end.
Proof.
  revert w; induction g as [a|e|k IH|w' k IH|y k IH]; intros w; simpl;
    try apply IH; auto.
Qed.

(** [list(gen)] does not suspend its caller, whatever the caller is. *)
Lemma list_next {Y Y'} (gen : G Y unit) w :
  next (list_ (Y':=Y') gen) w = to_step (exec (list_ gen) w).
Proof.
  revert w; induction gen as [a|e|k IH|w' k IH|y k IH]; intros w; simpl;
    try apply IH; auto.
  change (next (list_ (Y':=Y') (k None) ≫= (fun l => Ret (y :: l))) w =
          to_step (exec (list_ (k None) ≫= (fun l => Ret (y :: l))) w)).
  rewrite next_bind, exec_bind, IH.
  destruct (exec (list_ (k None)) w); reflexivity.
Qed.

(** Neither does [run]. *)
Lemma run_next {Y} spawn (cmd : G string unit) (raise_on_err capture : bool) w :
  next (run (Y:=Y) spawn cmd raise_on_err capture) w =
  to_step (exec (run spawn cmd raise_on_err capture) w).
Proof.
  unfold run, Popen. cbv zeta.
  rewrite !next_bind, !exec_bind, list_next.
  destruct (exec (list_ cmd) w) as [argv w1|e w1]; simpl; [|reflexivity].
  destruct (spawn argv w1) as [c|]; simpl; [|reflexivity].
  destruct capture; simpl.
  - destruct (decode_utf8 (c_stdout c)); simpl; [|reflexivity].
    destruct (decode_utf8 (c_stderr c)); simpl; [|reflexivity].
    destruct (_ && _); reflexivity.
  - destruct (_ && _); reflexivity.
Qed.

Lemma create_venv_cmd_tokens PY2 sys_executable venv_dir python args w :
  exec (list_ (create_venv_cmd PY2 sys_executable venv_dir python args)) w =
  Ok ((if PY2 then ["virtualenv"; "-p"; default sys_executable python]
       else [default sys_executable python; "-m"; "venv"])
      ++ [venv_dir])%list w.
Proof.
  unfold create_venv_cmd. tokens.
  destruct PY2, python; tokens; reflexivity.
Qed.

(** How the venv file names relate to the temporary directory. *)
Lemma prefix_length a b :
  String.prefix a b = true -> (String.length a <= String.length b)%nat.
Proof.
  revert b; induction a as [|c a IH]; intros [|d b]; simpl; try lia;
    try discriminate.
  destruct (ascii_dec c d); [|discriminate]. intros H. apply IH in H. lia.
Qed.

Lemma length_app a b :
  String.length (a ++ b) = (String.length a + String.length b)%nat.
Proof. induction a as [|c a IH]; simpl; [reflexivity|by rewrite IH]. Qed.

(** The temporary directory is not below the venv directory inside it. *)
Lemma venv_root_not_below venv_root :
  below (path_join venv_root "venv") venv_root = false.
Proof.
  unfold below. apply orb_false_iff. split.
  - apply String.eqb_neq. intros H. apply (f_equal String.length) in H.
    revert H. unfold path_join. simpl.
    destruct (_ || _); rewrite ?length_app; simpl; lia.
  - apply not_true_is_false. intros H. apply prefix_length in H.
    revert H. unfold path_join. simpl.
    destruct (_ || _); rewrite ?length_app; simpl; lia.
Qed.

(** A scope over the venv fixture, when the temporary name is free and
    the venv command can be started and exits with status 0. *)
Lemma pytest_scope_venv_fixture (PY2 : bool) (sys_executable : string)
    (spawn : list string -> world -> option completed)
    (mkdtemp_name : world -> string) (python : option string)
    (tests : string -> world -> outcome unit) (w : world) (c : completed) :
  let venv_root := mkdtemp_name w in
  let venv_dir := path_join venv_root "venv" in
  let argv : list string := ((if PY2
                then ["virtualenv"; "-p"; default sys_executable python]
                else [default sys_executable python; "-m"; "venv"])
               ++ [venv_dir])%list in
  let w1 := set_fs (<[venv_root := Dir]> (fs w)) w in
  let w2 := set_fs (c_fs c) w1 in
  let w3 := final (tests venv_dir w2) in
  fs w !! venv_root = None ->
  spawn argv w1 = Some c ->
  c_returncode c = 0 ->
  pytest_scope (venv_fixture PY2 sys_executable spawn mkdtemp_name python)
               tests w =
  match fs w3 !! venv_dir with
  | Some Dir =>
    Finished venv_dir w2 (failure (tests venv_dir w2)) None
      (set_fs (filter (fun e => below venv_dir e.1 = false) (fs w3)) w3)
  | Some File =>
    Finished venv_dir w2 (failure (tests venv_dir w2))
      (Some (NotADirectoryError venv_dir)) w3
  | None =>
    Finished venv_dir w2 (failure (tests venv_dir w2))
      (Some (FileNotFoundError venv_dir)) w3
  end.
Proof.
  intros venv_root venv_dir argv w1 w2 w3 Hfree Hs Hrc.
  unfold pytest_scope, venv_fixture, mkdtemp. simpl.
  fold venv_root. rewrite Hfree. simpl. fold w1 venv_dir.
  rewrite next_bind, run_next, run_exec, create_venv_cmd_tokens.
  fold argv. rewrite Hs. cbv zeta. rewrite Hrc. simpl. fold w2.
  subst w3. destruct (tests venv_dir w2) as [[] w3|e w3]; simpl;
    destruct (fs w3 !! venv_dir) as [[]|]; reflexivity.
Qed.

(** C7 as stated fails: the fixture removes the [venv] directory, not
    the temporary directory it made.  On [host0], with the temporary
    name [/tmp/tmpq1] and passing tests, the scope ends with
    [/tmp/tmpq1/venv] gone and [/tmp/tmpq1], which was not there before,
    still in place. *)
Lemma venv_fixture_leaves_temporary_directory :
  let scope :=
    pytest_scope
      (f_func (create_venv_fixture false "/usr/bin/python3" venv_spawn
                 tmp_name "module" false None))
      (fun _ => pass) host0 in
  fs host0 !! "/tmp/tmpq1" = None
  /\ scope_value scope = Some "/tmp/tmpq1/venv"
  /\ fs (scope_final scope) !! "/tmp/tmpq1/venv" = None
  /\ fs (scope_final scope) !! "/tmp/tmpq1" = Some Dir.
Proof. vm_compute. repeat split. Qed.

(** C7, amended: for every scope, autouse flag and interpreter, when the
    temporary name is free and the venv command starts and exits with
    status 0, the fixture makes the temporary directory, runs the venv
    command for the [venv] directory inside it, and gives the tests that
    path; at the end of the scope, whether the tests passed or failed,
    it removes the [venv] directory (if the tests left it in place) with
    everything below it, and nothing else: the temporary directory itself
    stays. *)
Theorem venv_fixture_scope (PY2 : bool) (sys_executable : string)
    (spawn : list string -> world -> option completed)
    (mkdtemp_name : world -> string)
    (scope : string) (autouse : bool) (python : option string)
    (tests : string -> world -> outcome unit) (w : world) (c : completed) :
  let venv_root := mkdtemp_name w in
  let venv_dir := path_join venv_root "venv" in
  let argv : list string :=
    ((if PY2
      then ["virtualenv"; "-p"; default sys_executable python]
      else [default sys_executable python; "-m"; "venv"])
     ++ [venv_dir])%list in
  let w1 := set_fs (<[venv_root := Dir]> (fs w)) w in
  let w2 := set_fs (c_fs c) w1 in
  let w3 := final (tests venv_dir w2) in
  fs w !! venv_root = None ->
  spawn argv w1 = Some c ->
  c_returncode c = 0 ->
  fs w3 !! venv_dir = Some Dir ->
  exists w4,
    pytest_scope
      (f_func (create_venv_fixture PY2 sys_executable spawn mkdtemp_name
                 scope autouse python))
      tests w
    = Finished venv_dir w2 (failure (tests venv_dir w2)) None w4
    /\ environ w4 = environ w3 /\ cwd w4 = cwd w3
    /\ (forall p, below venv_dir p = true -> fs w4 !! p = None)
    /\ (forall p, below venv_dir p = false -> fs w4 !! p = fs w3 !! p)
    /\ fs w4 !! venv_root = fs w3 !! venv_root.
Proof.
  intros venv_root venv_dir argv w1 w2 w3 Hfree Hs Hrc Hdir. simpl.
  rewrite (pytest_scope_venv_fixture _ _ _ _ _ _ _ c Hfree Hs Hrc).
  fold venv_root venv_dir w1 w2 w3. rewrite Hdir.
  eexists. split; [reflexivity|]. simpl.
  assert (Hin : forall p, below venv_dir p = false ->
            filter (fun e => below venv_dir e.1 = false) (fs w3) !! p
            = fs w3 !! p).
  { intros p Hp. destruct (fs w3 !! p) as [n|] eqn:E.
    - by apply map_lookup_filter_Some.
    - apply map_lookup_filter_None. left. done. }
  repeat split; [|exact Hin|].
  - intros p Hp. apply map_lookup_filter_None. right.
    intros n _. simpl. congruence.
  - apply Hin, venv_root_not_below.
Qed.

Lemma venv_fixture_scope_witness :
  exists w4,
    pytest_scope
      (f_func (create_venv_fixture false "/usr/bin/python3" venv_spawn
                 tmp_name "module" false None))
      (fun _ => boom) host0
    = Finished "/tmp/tmpq1/venv"
        (set_fs (<["/tmp/tmpq1/venv/bin" := Dir]>
                   (<["/tmp/tmpq1/venv" := Dir]>
                      (<["/tmp/tmpq1" := Dir]> (fs host0)))) host0)
        (Some (Exception "boom")) None w4
    /\ environ w4 = environ host0 /\ cwd w4 = cwd host0
    /\ (forall p, below "/tmp/tmpq1/venv" p = true -> fs w4 !! p = None)
    /\ (forall p, below "/tmp/tmpq1/venv" p = false ->
          fs w4 !! p = (<["/tmp/tmpq1/venv/bin" := Dir]>
                          (<["/tmp/tmpq1/venv" := Dir]>
                             (<["/tmp/tmpq1" := Dir]> (fs host0)))) !! p)
    /\ fs w4 !! "/tmp/tmpq1" = Some Dir.
Proof.
  pose proof (venv_fixture_scope false "/usr/bin/python3" venv_spawn tmp_name
                "module" false None (fun _ => boom) host0
                (Completed 0 [] []
                   (<["/tmp/tmpq1/venv/bin" := Dir]>
                      (<["/tmp/tmpq1/venv" := Dir]>
                         (<["/tmp/tmpq1" := Dir]> (fs host0))))))
    as H.
  cbv zeta in H.
  assert (H1 : fs host0 !! tmp_name host0 = None) by reflexivity.
  specialize (H H1 eq_refl eq_refl eq_refl).
  vm_compute in H. vm_compute. exact H.
Defined.

(** * Further properties *)

(** ** The scoped mutators, entry and exit *)

Lemma exec_try {A} (g : G Empty_set A) w :
  exec (try_ g) w =
  match exec g w with
  | Ok a w' => Ok (inr a) w'
  | Err e w' => Ok (inl e) w'
  end.
Proof.
  revert w; induction g as [a|e|k IH|w' k IH|[] k IH]; intros w; simpl;
    try apply IH; auto.
Qed.

(** [with add_to_path(target):] over any plain body. *)
Lemma add_to_path_with target (body : G Empty_set unit) w :
  exec (with_ (add_to_path target) body) w =
  match environ w !! "PATH" with
  | None => Err (KeyError "PATH") w
  | Some start =>
    match exec body (set_environ
                       (<["PATH" := target ++ ":" ++ start]> (environ w)) w)
    with
    | Ok _ w2 => Ok tt (set_environ (<["PATH" := start]> (environ w2)) w2)
    | Err e w2 => Err e w2
    end
  end.
Proof.
  unfold with_, add_to_path. simpl.
  destruct (environ w !! "PATH") as [start|]; simpl; [|reflexivity].
  rewrite exec_bind, exec_try.
  destruct (exec body _) as [[] w2|e w2]; reflexivity.
Qed.

(** X1: without [PATH] in the environment, [with add_to_path(target):]
    raises [KeyError('PATH')]; the block is not run and the host state
    is untouched. *)
Theorem add_to_path_without_PATH (target : string)
    (block : world -> outcome unit) (w : world) :
  environ w !! "PATH" = None ->
  exec (with_ (add_to_path target) (call block)) w = Err (KeyError "PATH") w.
Proof. intros H. by rewrite add_to_path_exec, H. Qed.

Lemma add_to_path_without_PATH_witness :
  exec (with_ (add_to_path "/opt/bin") (call rm_home)) bare
  = Err (KeyError "PATH") bare.
Proof. apply add_to_path_without_PATH. reflexivity. Defined.

(** X2: without [PATH], [with activate_venv(venv_dir):] raises
    [KeyError('PATH')] before the block runs, and the two marker
    variables it had already set stay in the environment; every other
    variable, the working directory and the file system are untouched. *)
Theorem activate_venv_without_PATH (venv_dir : string)
    (block : world -> outcome unit) (w : world) :
  environ w !! "PATH" = None ->
  exists w',
    exec (with_ (activate_venv venv_dir) (call block)) w
    = Err (KeyError "PATH") w'
    /\ environ w' !! "VIRTUAL_ENV" = Some venv_dir
    /\ environ w' !! "__PYVENV_LAUNCHER__" = Some (venv_dir ++ "/bin/python")
    /\ (forall key, key <> "VIRTUAL_ENV" -> key <> "__PYVENV_LAUNCHER__" ->
          environ w' !! key = environ w !! key)
    /\ cwd w' = cwd w /\ fs w' = fs w.
Proof.
  intros H. rewrite activate_venv_exec, H. eexists. split; [reflexivity|].
  simpl. repeat split.
  - rewrite lookup_insert_ne by done. by rewrite lookup_insert_eq.
  - by rewrite lookup_insert_eq.
  - intros key H1 H2. rewrite !lookup_insert_ne by done. done.
Qed.

Lemma activate_venv_without_PATH_witness :
  exists w',
    exec (with_ (activate_venv "/venv") (call pass)) bare
    = Err (KeyError "PATH") w'
    /\ environ w' !! "VIRTUAL_ENV" = Some "/venv"
    /\ environ w' !! "__PYVENV_LAUNCHER__" = Some "/venv/bin/python"
    /\ (forall key, key <> "VIRTUAL_ENV" -> key <> "__PYVENV_LAUNCHER__" ->
          environ w' !! key = environ bare !! key)
    /\ cwd w' = cwd bare /\ fs w' = fs bare.
Proof. apply (activate_venv_without_PATH "/venv" pass bare). reflexivity. Defined.

(** X3: [add_to_path] restores [PATH] and nothing else.  When the block
    returns normally, [PATH] is set back to its value before (also when
    the block removed it), and every other variable, the working
    directory and the file system are as the block left them. *)
Theorem add_to_path_restores_only_PATH (target : string)
    (block : world -> outcome unit) (w w2 : world) (start : string) :
  environ w !! "PATH" = Some start ->
  block (set_environ (<["PATH" := target ++ ":" ++ start]> (environ w)) w)
  = Ok tt w2 ->
  exists w',
    exec (with_ (add_to_path target) (call block)) w = Ok tt w'
    /\ environ w' !! "PATH" = Some start
    /\ (forall key, key <> "PATH" -> environ w' !! key = environ w2 !! key)
    /\ cwd w' = cwd w2 /\ fs w' = fs w2.
Proof.
  intros HP Hb. rewrite add_to_path_exec, HP, Hb.
  eexists. split; [reflexivity|]. simpl. repeat split.
  - by rewrite lookup_insert_eq.
  - intros key Hk. rewrite lookup_insert_ne by done. done.
Qed.

(** X4: inside [with activate_venv(venv_dir):] the block sees
    [VIRTUAL_ENV] set to the venv directory, [__PYVENV_LAUNCHER__] to its
    [bin/python], [PATH] with the venv's [bin] directory in front of the
    value before, and all other variables unchanged. *)
Theorem activate_venv_block_environment (venv_dir : string)
    (block : world -> outcome unit) (w : world) (start : string) :
  environ w !! "PATH" = Some start ->
  exists w_in,
    exec (with_ (activate_venv venv_dir) (call block)) w
    = match block w_in with
      | Ok _ w2 => Ok tt (set_environ (environ w) w2)
      | Err e w2 => Err e w2
      end
    /\ environ w_in !! "VIRTUAL_ENV" = Some venv_dir
    /\ environ w_in !! "__PYVENV_LAUNCHER__" = Some (venv_dir ++ "/bin/python")
    /\ environ w_in !! "PATH" = Some (path_join venv_dir "bin" ++ ":" ++ start)
    /\ (forall key, key <> "VIRTUAL_ENV" -> key <> "__PYVENV_LAUNCHER__" ->
          key <> "PATH" -> environ w_in !! key = environ w !! key)
    /\ cwd w_in = cwd w /\ fs w_in = fs w.
Proof.
  intros HP. rewrite activate_venv_exec, HP.
  eexists. split; [reflexivity|]. unfold venv_environ. simpl. repeat split.
  - rewrite !lookup_insert_ne by done. by rewrite lookup_insert_eq.
  - rewrite lookup_insert_ne by done. by rewrite lookup_insert_eq.
  - by rewrite lookup_insert_eq.
  - intros key H1 H2 H3. rewrite !lookup_insert_ne by done. done.
Qed.

Lemma add_to_path_restores_only_PATH_witness :
  exists w',
    exec (with_ (add_to_path "/opt/bin") (call scrub)) host0 = Ok tt w'
    /\ environ w' !! "PATH" = Some "/usr/bin"
    /\ (forall key, key <> "PATH" ->
          environ w' !! key
          = ({[ "EDITOR" := "vi" ]} : gmap string string) !! key)
    /\ cwd w' = "/home" /\ fs w' = fs host0.
Proof.
  pose proof (add_to_path_restores_only_PATH "/opt/bin" scrub host0
                (set_environ {[ "EDITOR" := "vi" ]} host0) "/usr/bin"
                eq_refl eq_refl) as H.
  vm_compute in H. vm_compute. exact H.
Defined.

Lemma activate_venv_block_environment_witness :
  exists w_in,
    exec (with_ (activate_venv "/venv") (call pass)) host0
    = match pass w_in with
      | Ok _ w2 => Ok tt (set_environ (environ host0) w2)
      | Err e w2 => Err e w2
      end
    /\ environ w_in !! "VIRTUAL_ENV" = Some "/venv"
    /\ environ w_in !! "__PYVENV_LAUNCHER__" = Some "/venv/bin/python"
    /\ environ w_in !! "PATH" = Some "/venv/bin:/usr/bin"
    /\ (forall key, key <> "VIRTUAL_ENV" -> key <> "__PYVENV_LAUNCHER__" ->
          key <> "PATH" -> environ w_in !! key = environ host0 !! key)
    /\ cwd w_in = cwd host0 /\ fs w_in = fs host0.
Proof.
  apply (activate_venv_block_environment "/venv" pass host0 "/usr/bin").
  reflexivity.
Defined.





(** X7: the mutators never swallow an exception and never restore after
    one.  When the block raises [e], each of the three [with] statements
    raises the same [e], and the host state is exactly the one the block
    ended in. *)
Theorem scoped_mutators_propagate_exception (target : string)
    (block : world -> outcome unit) (w w2 : world) (e : exn) :
  (forall start,
     environ w !! "PATH" = Some start ->
     block (set_environ
              (<["PATH" := target ++ ":" ++ start]> (environ w)) w)
     = Err e w2 ->
     exec (with_ (add_to_path target) (call block)) w = Err e w2)
  /\ (fs w !! cwd w = Some Dir ->
      fs w !! target = Some Dir ->
      block (set_cwd target w) = Err e w2 ->
      exec (with_ (changedir target) (call block)) w = Err e w2)
  /\ (forall start,
        environ w !! "PATH" = Some start ->
        block (set_environ (venv_environ target start (environ w)) w)
        = Err e w2 ->
        exec (with_ (activate_venv target) (call block)) w = Err e w2).
Proof.
  split; [|split].
  - intros start HP Hb. by rewrite add_to_path_exec, HP, Hb.
  - intros Hc Ht Hb. by rewrite changedir_exec, Hc, Ht, Hb.
  - intros start HP Hb. by rewrite activate_venv_exec, HP, Hb.
Qed.

Lemma scoped_mutators_propagate_exception_witness :
  exec (with_ (add_to_path "/srv") (call boom)) host0
  = Err (Exception "boom")
        (set_environ (<["PATH" := "/srv:/usr/bin"]> (environ host0)) host0)
  /\ exec (with_ (changedir "/srv") (call boom)) host0
     = Err (Exception "boom") (set_cwd "/srv" host0)
  /\ exec (with_ (activate_venv "/srv") (call boom)) host0
     = Err (Exception "boom")
           (set_environ (venv_environ "/srv" "/usr/bin" (environ host0))
                        host0).
Proof.
  split; [|split].
  - eapply (scoped_mutators_propagate_exception "/srv" boom host0);
      reflexivity.
  - eapply (scoped_mutators_propagate_exception "/srv" boom host0);
      reflexivity.
  - eapply (scoped_mutators_propagate_exception "/srv" boom host0);
      reflexivity.
Defined.

(** X8: nested [with add_to_path(t1): with add_to_path(t2):] puts [t2]
    in front of [t1] in front of the old [PATH] for the block, and when
    the block returns normally the two exits bring [PATH] back to the
    old value. *)
Theorem add_to_path_nested (t1 t2 : string)
    (block : world -> outcome unit) (w w2 : world) (start : string) :
  environ w !! "PATH" = Some start ->
  block (set_environ
           (<["PATH" := t2 ++ ":" ++ t1 ++ ":" ++ start]> (environ w)) w)
  = Ok tt w2 ->
  exists w',
    exec (with_ (add_to_path t1) (with_ (add_to_path t2) (call block))) w
    = Ok tt w'
    /\ environ w' !! "PATH" = Some start
    /\ (forall key, key <> "PATH" -> environ w' !! key = environ w2 !! key).
Proof.
  intros HP Hb. rewrite add_to_path_with, HP, add_to_path_exec. simpl.
  rewrite lookup_insert_eq, insert_insert_eq.
  change (set_environ
            (<["PATH" := t2 ++ ":" ++ t1 ++ ":" ++ start]> (environ w))
            (set_environ (<["PATH" := t1 ++ ":" ++ start]> (environ w)) w))
    with (set_environ
            (<["PATH" := t2 ++ ":" ++ t1 ++ ":" ++ start]> (environ w)) w).
  rewrite Hb. eexists. split; [reflexivity|]. simpl. split.
  - by rewrite lookup_insert_eq.
  - intros key Hk. rewrite !lookup_insert_ne by done. done.
Qed.

Lemma add_to_path_nested_witness :
  exists w',
    exec (with_ (add_to_path "/a") (with_ (add_to_path "/b") (call pass)))
         host0
    = Ok tt w'
    /\ environ w' !! "PATH" = Some "/usr/bin"
    /\ (forall key, key <> "PATH" ->
          environ w' !! key
          = (<["PATH" := "/b:/a:/usr/bin"]> (environ host0)) !! key).
Proof.
  pose proof (add_to_path_nested "/a" "/b" pass host0
                (set_environ (<["PATH" := "/b:/a:/usr/bin"]> (environ host0))
                             host0)
                "/usr/bin" eq_refl eq_refl) as H.
  vm_compute in H. vm_compute. exact H.
Defined.

(** ** The runner, further *)

(** X9: for a command that exits with status 0, [raise_on_err] makes no
    difference: [run] returns, the return code 0 when capture is off and
    the decoded stdout when it is on (the streams decoding as UTF-8). *)
Theorem run_zero_exit (spawn : list string -> world -> option completed)
    (cmd : G string unit) (raise_on_err capture : bool) (w w1 : world)
    (argv : list string) (c : completed) (out err : text) :
  exec (list_ cmd) w = Ok argv w1 ->
  spawn argv w1 = Some c ->
  c_returncode c = 0 ->
  (capture = true ->
   decode_utf8 (c_stdout c) = Some out /\ decode_utf8 (c_stderr c) = Some err) ->
  exec (run spawn cmd raise_on_err capture) w
  = Ok (if capture then PStr out else PInt 0) (set_fs (c_fs c) w1).
Proof.
  intros Hl Hs Hrc Hd. rewrite run_exec, Hl, Hs. cbv zeta.
  rewrite Hrc, andb_false_r.
  destruct capture; [|reflexivity].
  by destruct (Hd eq_refl) as [-> ->].
Qed.

Lemma run_zero_exit_witness :
  exec (run quiet_spawn (iter ["true"]) true true) host0
  = Ok (PStr []) host0.
Proof.
  apply (run_zero_exit quiet_spawn (iter ["true"]) true true host0 host0
           ["true"] (Completed 0 [] [] (fs host0)) [] []).
  - reflexivity.
  - reflexivity.
  - reflexivity.
  - intros _. split; reflexivity.
Defined.

(** X10: when the program cannot be started, [run] raises the operating
    system's error whatever the flags are; nothing is waited for and the
    host state is as consuming [cmd] left it. *)
Theorem run_spawn_failure (spawn : list string -> world -> option completed)
    (cmd : G string unit) (raise_on_err capture : bool) (w w1 : world)
    (argv : list string) :
  exec (list_ cmd) w = Ok argv w1 ->
  spawn argv w1 = None ->
  exec (run spawn cmd raise_on_err capture) w = Err (OSError argv) w1.
Proof. intros Hl Hs. by rewrite run_exec, Hl, Hs. Qed.

Lemma run_spawn_failure_witness :
  exec (run no_spawn (iter ["nonesuch"; "-x"]) false true) host0
  = Err (OSError ["nonesuch"; "-x"]) host0.
Proof.
  apply (run_spawn_failure no_spawn (iter ["nonesuch"; "-x"]) false true
           host0 host0 ["nonesuch"; "-x"]); reflexivity.
Defined.

(** X11: [run] raises [CalledProcessError] only when asked to and only
    for a nonzero return code.  When consuming [cmd] does not raise and
    [run] ends in [CalledProcessError], then [raise_on_err] was set, the
    child was started and exited with the nonzero code the error
    carries, the error carries the command, and without capture it
    carries no output. *)
Theorem run_CalledProcessError_only_on_request
    (spawn : list string -> world -> option completed)
    (cmd : G string unit) (raise_on_err capture : bool) (w w1 w' : world)
    (argv a : list string) (rc : Z) (o e : option text) :
  exec (list_ cmd) w = Ok argv w1 ->
  exec (run spawn cmd raise_on_err capture) w
  = Err (CalledProcessError rc a o e) w' ->
  raise_on_err = true /\ rc <> 0 /\ a = argv
  /\ (exists c, spawn argv w1 = Some c /\ rc = c_returncode c
                /\ w' = set_fs (c_fs c) w1)
  /\ (capture = false -> o = None /\ e = None).
Proof.
  intros Hl. rewrite run_exec, Hl.
  destruct (spawn argv w1) as [c|]; [|discriminate]. cbv zeta.
  assert (Hk : forall o' e',
    (if raise_on_err && negb (c_returncode c =? 0)
     then Err (CalledProcessError (c_returncode c) argv o' e')
              (set_fs (c_fs c) w1)
     else Ok (if capture then of_option o' else PInt (c_returncode c))
             (set_fs (c_fs c) w1))
    = Err (CalledProcessError rc a o e) w' ->
    raise_on_err = true /\ rc <> 0 /\ a = argv
    /\ (exists c0, Some c = Some c0 /\ rc = c_returncode c0
                   /\ w' = set_fs (c_fs c0) w1)
    /\ o = o' /\ e = e').
  { intros o' e'. destruct raise_on_err; simpl; [|discriminate].
    destruct (c_returncode c =? 0) eqn:E; simpl; [discriminate|].
    intros [= <- <- <- <- <-]. apply Z.eqb_neq in E. eauto 10. }
  destruct capture.
  - destruct (decode_utf8 (c_stdout c)) as [out|]; [|discriminate].
    destruct (decode_utf8 (c_stderr c)) as [err|]; [|discriminate].
    intros H. apply (Hk (Some out) (Some err)) in H.
    destruct H as (?&?&?&?&?&?). split_and!; auto; discriminate.
  - intros H. apply (Hk None None) in H.
    destruct H as (?&?&?&?&?&?). split_and!; auto.
Qed.

Lemma run_CalledProcessError_only_on_request_witness :
  true = true /\ 2 <> 0 /\ ["false"] = ["false"]
  /\ (exists c, failing_spawn ["false"] host0 = Some c
                /\ 2 = c_returncode c /\ host0 = set_fs (c_fs c) host0)
  /\ (false = false -> (None : option text) = None
                       /\ (None : option text) = None).
Proof.
  apply (run_CalledProcessError_only_on_request failing_spawn
           (iter ["false"]) true false host0 host0 host0 ["false"] ["false"]
           2 None None); reflexivity.
Defined.

(** X12: with capture on, output that is not UTF-8 makes [run] raise
    [UnicodeDecodeError], whatever [raise_on_err] and the return code
    are; by then the child has run to its end. *)
Theorem run_undecodable_stdout
    (spawn : list string -> world -> option completed)
    (cmd : G string unit) (raise_on_err : bool) (w w1 : world)
    (argv : list string) (c : completed) :
  exec (list_ cmd) w = Ok argv w1 ->
  spawn argv w1 = Some c ->
  decode_utf8 (c_stdout c) = None ->
  exec (run spawn cmd raise_on_err true) w
  = Err (UnicodeDecodeError (c_stdout c)) (set_fs (c_fs c) w1).
Proof. intros Hl Hs Hd. by rewrite run_exec, Hl, Hs; cbv zeta; rewrite Hd. Qed.

Lemma run_undecodable_stdout_witness :
  exec (run garbled_spawn (iter ["cat"; "blob"]) false true) host0
  = Err (UnicodeDecodeError [Byte.xff]) host0.
Proof.
  apply (run_undecodable_stdout garbled_spawn (iter ["cat"; "blob"]) false
           host0 host0 ["cat"; "blob"]
           (Completed 0 [Byte.xff] [] (fs host0))); reflexivity.
Defined.

(** ** The command builders, further *)

Lemma pip_cmd_appends_fixed_index_witness :
  exec (list_ (pip_cmd "http://pypi.example/simple" ["download"; "foo"]))
       host0
  = Ok ["pip"; "download"; "foo"; "-i"; "http://localhost:8080"] host0.
Proof.
  apply (pip_cmd_appends_fixed_index "http://pypi.example/simple"
           ["download"; "foo"] host0).
  - right. left. apply (bool_decide_unpack _). vm_compute. exact I.
  - repeat split; apply (bool_decide_unpack _); vm_compute; exact I.
Defined.

(** X16: what [pip_cmd] yields does not depend on [default_index]. *)
Theorem pip_cmd_default_index_irrelevant (index1 index2 : string)
    (args : list string) (w : world) :
  exec (list_ (pip_cmd index1 args)) w = exec (list_ (pip_cmd index2 args)) w.
Proof. by rewrite !pip_cmd_tokens. Qed.

Lemma in_ext (args args' : list string) :
  (forall x, x ∈ args <-> x ∈ args') ->
  forall i, in_ i args = in_ i args'.
Proof. intros H i. unfold in_. apply bool_decide_ext, H. Qed.

(** X17: [pip_cmd] decides by membership, not by position: two argument
    lists with the same elements (a reordering, say) get the same
    tokens appended after them. *)
Theorem pip_cmd_order_independent (default_index : string)
    (args args' : list string) (w : world) :
  (forall x, x ∈ args <-> x ∈ args') ->
  exists suffix,
    exec (list_ (pip_cmd default_index args)) w
    = Ok ("pip" :: args ++ suffix)%list w
    /\ exec (list_ (pip_cmd default_index args')) w
       = Ok ("pip" :: args' ++ suffix)%list w.
Proof.
  intros H. rewrite !pip_cmd_tokens. simpl.
  rewrite !(in_ext args args' H). eexists. split; reflexivity.
Qed.

Lemma pip_cmd_order_independent_witness :
  exists suffix,
    exec (list_ (pip_cmd "http://localhost:8080" ["install"; "foo"])) host0
    = Ok ("pip" :: ["install"; "foo"] ++ suffix)%list host0
    /\ exec (list_ (pip_cmd "http://localhost:8080" ["foo"; "install"])) host0
       = Ok ("pip" :: ["foo"; "install"] ++ suffix)%list host0.
Proof.
  apply (pip_cmd_order_independent "http://localhost:8080"
           ["install"; "foo"] ["foo"; "install"] host0).
  intros x. rewrite !elem_of_cons, !elem_of_nil. tauto.
Defined.

Lemma pip_cmd_with_short_flag default_index (args : list string) w :
  "-i" ∈ args ->
  exec (list_ (pip_cmd default_index args)) w = Ok ("pip" :: args) w.
Proof.
  intros H. rewrite pip_cmd_tokens.
  assert (E : any_ (map (fun i => in_ i args) ["-i"; "--index"; "--index-url"])
              = true).
  { apply any_in_true. exists "-i". split; [set_solver|done]. }
  by rewrite E, andb_false_r, app_nil_r.
Qed.

(** X18: [pip_cmd] never doubles the index flag: given the arguments it
    has just produced (the tokens after ['pip']), it yields them again
    unchanged. *)
Theorem pip_cmd_idempotent (default_index : string) (args : list string)
    (w : world) :
  exists out,
    exec (list_ (pip_cmd default_index args)) w = Ok ("pip" :: out) w
    /\ exec (list_ (pip_cmd default_index out)) w = Ok ("pip" :: out) w.
Proof.
  rewrite pip_cmd_tokens. eexists. split; [reflexivity|].
  destruct (any_ (map (fun i => in_ i args) ["install"; "download"; "search"])
            && negb (any_ (map (fun i => in_ i args)
                               ["-i"; "--index"; "--index-url"]))) eqn:E.
  - apply pip_cmd_with_short_flag.
    apply elem_of_app. right. set_solver.
  - rewrite app_nil_r, pip_cmd_tokens, E. by rewrite app_nil_r.
Qed.

(** X19: the command [twine_cmd] yields always names a repository, a user
    and a password: [--repository-url] with the URL, [-u] and [-p] are
    among the tokens after ['twine'], whatever the arguments. *)
Theorem twine_cmd_always_complete (repo_url : string) (args : list string)
    (w : world) :
  exists out,
    exec (list_ (twine_cmd repo_url args)) w = Ok ("twine" :: out) w
    /\ "--repository-url" ∈ out /\ repo_url ∈ out
    /\ "-u" ∈ out /\ "-p" ∈ out.
Proof.
  rewrite twine_cmd_tokens. unfold in_. eexists. split; [reflexivity|].
  do 2 case_bool_decide; set_solver.
Qed.

Lemma twine_cmd_flags_present (repo_url : string) (args : list string) :
  let out := (args ++ ["--repository-url"; repo_url]
                ++ (if in_ "-u" args then [] else ["-u"; "username"])
                ++ (if in_ "-p" args then [] else ["-p"; "password"]))%list in
  "-u" ∈ out /\ "-p" ∈ out.
Proof. unfold in_. simpl. do 2 case_bool_decide; set_solver. Qed.

(** X20: given the arguments it has just produced, [twine_cmd] adds no
    second pair of credentials, but it does add [--repository-url] and
    the URL once more: that pair is appended unconditionally. *)
Theorem twine_cmd_reapplied (repo_url : string) (args : list string)
    (w : world) :
  exists out,
    exec (list_ (twine_cmd repo_url args)) w = Ok ("twine" :: out) w
    /\ exec (list_ (twine_cmd repo_url out)) w
       = Ok ("twine" :: out ++ ["--repository-url"; repo_url])%list w.
Proof.
  rewrite twine_cmd_tokens. eexists. split; [reflexivity|].
  destruct (twine_cmd_flags_present repo_url args) as [Hu Hp].
  rewrite twine_cmd_tokens.
  rewrite (bool_decide_eq_true_2 _ Hu : in_ "-u" _ = true),
          (bool_decide_eq_true_2 _ Hp : in_ "-p" _ = true).
  by rewrite !app_nil_r.
Qed.

(** X21: [create_venv_cmd] yields four tokens, the venv directory last:
    [virtualenv -p python dir] under Python 2 and [python -m venv dir]
    otherwise, with [sys.executable] for a missing [python].  The extra
    arguments it accepts are never yielded. *)
Theorem create_venv_cmd_ignores_args (PY2 : bool)
    (sys_executable venv_dir : string) (python : option string)
    (args : list string) (w : world) :
  exec (list_ (create_venv_cmd PY2 sys_executable venv_dir python args)) w
  = exec (list_ (create_venv_cmd PY2 sys_executable venv_dir python [])) w
  /\ exec (list_ (create_venv_cmd PY2 sys_executable venv_dir python args)) w
     = Ok (if PY2
           then ["virtualenv"; "-p"; default sys_executable python; venv_dir]
           else [default sys_executable python; "-m"; "venv"; venv_dir]) w.
Proof.
  rewrite !create_venv_cmd_tokens. split; [reflexivity|]. by destruct PY2.
Qed.

(** ** The fixture, further *)

(** X22: when the venv program cannot be started, or (under Python 3)
    exits with a nonzero status, the setup of the venv fixture fails
    with the operating system's error or with [CalledProcessError] for
    that status: the tests are not run, nothing is cleaned up, and the
    temporary directory, already made, is left behind. *)
Theorem venv_fixture_setup_failure (PY2 : bool) (sys_executable : string)
    (spawn : list string -> world -> option completed)
    (mkdtemp_name : world -> string)
    (scope : string) (autouse : bool) (python : option string)
    (tests : string -> world -> outcome unit) (w : world) :
  let venv_root := mkdtemp_name w in
  let venv_dir := path_join venv_root "venv" in
  let argv : list string :=
    ((if PY2
      then ["virtualenv"; "-p"; default sys_executable python]
      else [default sys_executable python; "-m"; "venv"])
     ++ [venv_dir])%list in
  let w1 := set_fs (<[venv_root := Dir]> (fs w)) w in
  let fixture_ :=
    f_func (create_venv_fixture PY2 sys_executable spawn mkdtemp_name
              scope autouse python) in
  fs w !! venv_root = None ->
  (spawn argv w1 = None ->
   pytest_scope fixture_ tests w = SetupError (OSError argv) w1)
  /\ (forall c, PY2 = false -> spawn argv w1 = Some c ->
      c_returncode c <> 0 ->
      pytest_scope fixture_ tests w
      = SetupError (CalledProcessError (c_returncode c) argv None None)
                   (set_fs (c_fs c) w1)).
Proof.
  intros venv_root venv_dir argv w1 fixture_ Hfree. subst fixture_.
  unfold pytest_scope, create_venv_fixture, venv_fixture, mkdtemp. simpl.
  fold venv_root. rewrite Hfree. simpl. fold w1 venv_dir.
  rewrite next_bind, run_next, run_exec, create_venv_cmd_tokens.
  fold argv. split.
  - intros Hs. rewrite Hs. reflexivity.
  - intros c _ Hs Hrc. rewrite Hs. cbv zeta.
    apply Z.eqb_neq in Hrc. rewrite Hrc. reflexivity.
Qed.

Lemma venv_fixture_setup_failure_witness :
  pytest_scope
    (f_func (create_venv_fixture false "/usr/bin/python3" no_spawn
               tmp_name "module" false None))
    wipe host0
  = SetupError (OSError ["/usr/bin/python3"; "-m"; "venv"; "/tmp/tmpq1/venv"])
               (set_fs (<["/tmp/tmpq1" := Dir]> (fs host0)) host0)
  /\ pytest_scope
       (f_func (create_venv_fixture false "/usr/bin/python3" failing_spawn
                  tmp_name "session" true (Some "python3.9")))
       wipe host0
     = SetupError
         (CalledProcessError 2
            ["python3.9"; "-m"; "venv"; "/tmp/tmpq1/venv"] None None)
         (set_fs (<["/tmp/tmpq1" := Dir]> (fs host0)) host0).
Proof.
  assert (H1 : fs host0 !! tmp_name host0 = None) by reflexivity.
  split.
  - pose proof (venv_fixture_setup_failure false "/usr/bin/python3" no_spawn
                  tmp_name "module" false None wipe host0) as H.
    cbv zeta in H. destruct (H H1) as [H2 _].
    specialize (H2 eq_refl). vm_compute in H2. vm_compute. exact H2.
  - pose proof (venv_fixture_setup_failure false "/usr/bin/python3"
                  failing_spawn tmp_name "session" true (Some "python3.9")
                  wipe host0) as H.
    cbv zeta in H. destruct (H H1) as [_ H2].
    assert (H3 : (2 : Z) <> 0) by discriminate.
    specialize (H2 (Completed 2 [Byte.x6e; Byte.x6f] []
                      (<["/tmp/tmpq1" := Dir]> (fs host0)))
                   eq_refl eq_refl H3).
    vm_compute in H2. vm_compute. exact H2.
Defined.



(** ** doubles.py *)

(** X24: a [GenericNamespace] holds exactly its keyword arguments: each
    one is an attribute with the value given, and there are no other
    instance attributes.  This is so whenever no keyword is [self],
    [__class__], [__dict__] or [__weakref__]. *)
Theorem GenericNamespace_attributes {V} (kwargs : gmap string V) :
  (forall key, is_Some (kwargs !! key) ->
               key ∉ ["self"; "__class__"; "__dict__"; "__weakref__"]) ->
  GenericNamespace kwargs = Some kwargs.
Proof.
  intros Hall. unfold GenericNamespace.
  rewrite bool_decide_eq_false_2.
  2:{ intros Hself. apply (Hall "self" Hself). set_solver. }
  revert Hall.
  apply (map_fold_weak_ind
           (fun (r : option (gmap string V)) (m : gmap string V) =>
              (forall key, is_Some (m !! key) ->
                 key ∉ ["self"; "__class__"; "__dict__"; "__weakref__"]) ->
              r = Some m)).
  - reflexivity.
  - intros key value m r Hnew IH Hkeys.
    rewrite IH.
    + simpl. unfold setattr. rewrite bool_decide_eq_false_2; [reflexivity|].
      assert (Hk : key ∉ ["self"; "__class__"; "__dict__"; "__weakref__"]).
      { apply Hkeys. rewrite lookup_insert_eq. eauto. }
      rewrite !not_elem_of_cons in Hk. rewrite !not_elem_of_cons. tauto.
    + intros k [v Hk]. apply Hkeys.
      destruct (decide (key = k)) as [->|Hne]; [congruence|].
      rewrite lookup_insert_ne by done. eauto.
Qed.

Lemma GenericNamespace_attributes_witness :
  GenericNamespace (<["port" := 8080]> {[ "host" := 1 ]} : gmap string Z)
  = Some (<["port" := 8080]> {[ "host" := 1 ]}).
Proof.
  apply GenericNamespace_attributes.
  intros key [v Hv].
  destruct (decide (key = "port")) as [->|H1];
    [apply (bool_decide_unpack _); vm_compute; exact I|].
  destruct (decide (key = "host")) as [->|H2];
    [apply (bool_decide_unpack _); vm_compute; exact I|].
  rewrite lookup_insert_ne, lookup_singleton_ne in Hv by done.
  discriminate Hv.
Defined.
